(** * Sir-Reginald trading system: [utils.py], [config.py], [force_cleanup.py]

    A shallow embedding of the shared utilities (datetime handling,
    stale-order detection and cleanup, configuration repair), of the
    configuration tables with their start-up validation and of the
    stand-alone cleanup script, followed by the properties the
    specification states about them and by further properties of the same
    functions.

    Conventions of the embedding:
    - a dynamically typed Python value is a [value]; an object probed with
      [getattr] is its attribute dictionary, a [gmap string value];
    - Python floats that hold seconds, percentages and fractions are exact
      rationals ([Q]); instants are integers, in microseconds since the
      epoch, which is the resolution of [datetime];
    - code that can raise returns a [res]; [try ... except Exception] is
      [try_except]; code with side effects runs in the monad [M] over an
      explicit state (the heap of dictionaries, or the outside world seen
      through the brokerage gateway);
    - [exn] stands for the subclasses of [Exception]; task cancellation and
      interpreter exit, which no [except Exception] handler sees, are not
      modelled;
    - [logger] calls have no influence on control flow or results and are
      left out. *)

From stdpp Require Import gmap strings list fin_maps finite pretty.
From Stdlib Require Import QArith Qround.


#[local] Open Scope Z_scope.

(** ** Python values, exceptions and the two monads *)

Module Py.

(** A [datetime]: timezone-aware (an absolute instant, microseconds since the
    epoch, UTC) or naive (wall-clock microseconds, no zone attached). *)
Inductive datetime :=
| Aware (utc_us : Z)
| Naive (wall_us : Z).

(** Heap addresses of mutable dictionaries. *)
Abbreviation loc := positive (only parsing).

#[warnings="-register-all"]
Inductive value :=
| VNone
| VBool (b : bool)
| VInt (z : Z)
| VFloat (q : Q)
| VStr (s : string)
| VDatetime (d : datetime)
| VList (l : list value)
| VRef (l : loc).

(** An object as [getattr] sees it. *)
Abbreviation obj := (gmap string value) (only parsing).

Inductive exn :=
| TypeError
| AttributeError (name : string)
| KeyError (key : string)
| ValueError (msg : string)
| ParserError
| RuntimeError (msg : string).

Inductive res (A : Type) :=
| Ret (a : A)
| Raise (e : exn).
Arguments Ret {A} a.
Arguments Raise {A} e.

#[global] Instance res_ret : MRet res := λ A a, Ret a.
#[global] Instance res_bind : MBind res :=
  λ A B f m, match m with Ret a => f a | Raise e => Raise e end.

(** [try: body except Exception: handler] for code without side effects. *)
Definition try_res {A} (body : res A) (handler : exn → res A) : res A :=
  match body with
  | Ret a => Ret a
  | Raise e => handler e
  end.

(** State and exceptions: what a statement does to the state survives the
    exception it raises. *)
Definition M (S A : Type) : Type := S → res A * S.

#[global] Instance M_ret {S} : MRet (M S) := λ A a s, (Ret a, s).
#[global] Instance M_bind {S} : MBind (M S) :=
  λ A B f m s,
    match m s with
    | (Ret a, s') => f a s'
    | (Raise e, s') => (Raise e, s')
    end.

Definition lift_res {S A} (r : res A) : M S A := λ s, (r, s).

Definition try_except {S A} (body : M S A) (handler : exn → M S A) : M S A :=
  λ s,
    match body s with
    | (Ret a, s') => (Ret a, s')
    | (Raise e, s') => handler e s'
    end.

(** [for x in xs: acc = body(x, acc)]: the loop-carried locals are the
    accumulator; an exception leaves the loop at once. *)
Fixpoint for_each {S A B} (xs : list A) (body : A → B → M S B) (acc : B) : M S B :=
  match xs with
  | [] => mret acc
  | x :: rest => acc' ← body x acc; for_each rest body acc'
  end.

Definition Qlt_bool (x y : Q) : bool := negb (Qle_bool y x).

(** [bool(v)]. A [datetime] and a dictionary object reached through a
    reference are judged as Python judges them: the first is always true,
    the second is treated as an opaque object. *)
Definition truthy (v : value) : bool :=
  match v with
  | VNone => false
  | VBool b => b
  | VInt z => negb (z =? 0)
  | VFloat q => negb (Qeq_bool q 0)
  | VStr s => negb (String.eqb s "")
  | VDatetime _ => true
  | VList l => match l with [] => false | _ => true end
  | VRef _ => true
  end.

(** [v == s] and [v != s] for a string literal [s]. *)
Definition py_eq_str (v : value) (s : string) : bool :=
  match v with
  | VStr t => String.eqb t s
  | _ => false
  end.

Definition py_ne_str (v : value) (s : string) : bool := negb (py_eq_str v s).

(** [v < n] for an integer literal [n]: numbers compare (a [bool] is an
    [int]), anything else raises [TypeError]. *)
Definition py_lt_int (v : value) (n : Z) : res bool :=
  match v with
  | VBool b => Ret (Z.b2z b <? n)
  | VInt z => Ret (z <? n)
  | VFloat q => Ret (Qlt_bool q (inject_Z n))
  | _ => Raise TypeError
  end.

(** [getattr(o, name, default)] and the plain attribute access [o.name]. *)
Definition getattr (o : obj) (name : string) (dflt : value) : value :=
  default dflt (o !! name).

Definition getattr_strict (o : obj) (name : string) : res value :=
  match o !! name with
  | Some v => Ret v
  | None => Raise (AttributeError name)
  end.

(** [a - b] on datetimes, as a [timedelta] in microseconds: mixing an aware
    and a naive operand raises [TypeError]. *)
Definition datetime_sub (a b : datetime) : res Z :=
  match a, b with
  | Aware x, Aware y => Ret (x - y)
  | Naive x, Naive y => Ret (x - y)
  | _, _ => Raise TypeError
  end.

(** [timedelta.total_seconds()]. *)
Definition total_seconds (td_us : Z) : Q := td_us # 1000000.

(** [int(x)] on a float: truncation toward zero. *)
Definition py_int (x : Q) : Z := Z.quot (Qnum x) (Z.pos (Qden x)).

(** What the embedding takes from outside the repository:
    [dateutil.parser.parse], the format specification [.1f], and [str()] on
    the values whose rendering is not a one-liner. *)
Class Externals := {
  dateutil_parse : string → res datetime;
  format_1f : Q → string;
  str_other : value → string
}.

(** [str(v)], as an f-string placeholder renders it. *)
Definition py_str `{Externals} (v : value) : string :=
  match v with
  | VNone => "None"
  | VBool true => "True"
  | VBool false => "False"
  | VInt z => pretty z
  | VStr s => s
  | _ => str_other v
  end.

End Py.
Import Py.

(** ** [utils.py]: [DateTimeUtils] *)

Module DateTimeUtils.
Section WithExternals.
Context `{Externals}.

Definition parse_datetime (dt_input : value) : res (option datetime) :=
  match dt_input with
  | VNone => Ret None
  | VDatetime d => Ret (Some d)
  | VStr s =>
      try_res (d ← dateutil_parse s; Ret (Some d))
              (λ e, Ret None)
  | _ => Ret None
  end.

(** The value [parse_datetime] hands back, seen again as an argument. *)
Definition optional_datetime (r : option datetime) : value :=
  match r with
  | Some d => VDatetime d
  | None => VNone
  end.

(** [now] is the reading of [datetime.now(timezone.utc)]. *)
Definition calculate_age_seconds (now : Z) (created_at : value) : res (option Q) :=
  parsed_dt ← parse_datetime created_at;
  match parsed_dt with
  | None => Ret None
  | Some d =>
      try_res (td ← datetime_sub (Aware now) d; Ret (Some (total_seconds td)))
              (λ e, Ret None)
  end.

Definition format_age (age_seconds : Q) : string :=
  if Qlt_bool age_seconds 60 then format_1f age_seconds +:+ "s"
  else if Qlt_bool age_seconds 3600 then format_1f (age_seconds / 60) +:+ "m"
  else format_1f (age_seconds / 3600) +:+ "h".

End WithExternals.
End DateTimeUtils.

(** ** [utils.py]: [OrderUtils] *)

Module OrderUtils.
Import DateTimeUtils.

Definition default_threshold_seconds : Q := 120.

Section WithExternals.
Context `{Externals}.

Definition is_order_stale (now : Z) (order : obj) (threshold_seconds : Q)
  : res (bool * string) :=
  let status := getattr order "status" VNone in
  let created_at := getattr order "created_at" VNone in
  if py_ne_str status "new" then
    Ret (false, "status is '" +:+ py_str status +:+ "', not 'new'")
  else if negb (truthy created_at) then
    Ret (false, "no creation time available")
  else
    age_seconds ← calculate_age_seconds now created_at;
    match age_seconds with
    | None => Ret (false, "could not calculate age")
    | Some age =>
        if Qlt_bool threshold_seconds age then
          Ret (true, "age " +:+ format_age age +:+ " exceeds "
                       +:+ format_1f (threshold_seconds / 60) +:+ "m threshold")
        else
          Ret (false, "age " +:+ format_age age +:+ " under threshold")
    end.

(** The call without a threshold argument. *)
Definition is_order_stale_default (now : Z) (order : obj) : res (bool * string) :=
  is_order_stale now order default_threshold_seconds.

End WithExternals.

(** *** The brokerage gateway and the world behind it

    [W] is the state of everything outside the process: the brokerage and
    the clock.  A gateway call may change it in any way and may raise, and
    time passes while the clock is read: [clock] is the instant a reading
    returns, [tick] the world after the reading.  The calls a run makes are
    recorded, with their outcomes, in a trace. *)

Record gateway (W : Type) := {
  clock : W → Z;
  tick : W → W;
  get_orders : string → W → res (option (list obj)) * W;
  cancel_order : value → W → res (option obj) * W
}.
Arguments clock {W} g w.
Arguments tick {W} g w.
Arguments get_orders {W} g status w.
Arguments cancel_order {W} g order_id w.

Inductive event :=
| GetOrders (status : string) (outcome : res (option (list obj)))
| CancelOrder (order_id : value) (outcome : res (option obj))
| Sleep (seconds : Q).

Section Cleanup.
Context `{Externals} {W : Type} (gw : gateway W).

Abbreviation world := (W * list event)%type (only parsing).

Definition utc_now : M world Z :=
  λ s, (Ret (clock gw s.1), (tick gw s.1, s.2)).

Definition await_get_orders (status : string) : M world (option (list obj)) :=
  λ s, let '(r, w') := get_orders gw status s.1 in
       (r, (w', s.2 ++ [GetOrders status r])).

Definition await_cancel_order (order_id : value) : M world (option obj) :=
  λ s, let '(r, w') := cancel_order gw order_id s.1 in
       (r, (w', s.2 ++ [CancelOrder order_id r])).

Definition asyncio_sleep (seconds : Q) : M world unit :=
  λ s, (Ret (), (s.1, s.2 ++ [Sleep seconds])).

(** [cancel_response and cancel_response.success], as a condition. *)
Definition response_ok (cancel_response : option obj) : res bool :=
  match cancel_response with
  | None => Ret false
  | Some r => v ← getattr_strict r "success"; Ret (truthy v)
  end.

(** The body of [for order in target_orders]. *)
Definition cleanup_step (threshold_seconds : Q) (order : obj) (cancelled_count : Z)
  : M world Z :=
  let order_id := getattr order "id" VNone in
  now ← utc_now;
  '(is_stale, reason) ← lift_res (is_order_stale now order threshold_seconds);
  if is_stale && truthy order_id then
    try_except
      (cancel_response ← await_cancel_order order_id;
       ok ← lift_res (response_ok cancel_response);
       if ok : bool then mret (cancelled_count + 1) else mret cancelled_count)
      (λ e, mret cancelled_count)
  else mret cancelled_count.

(** [target_orders]: the filter is applied when [symbol] is truthy. *)
Definition target_orders (symbol : option string) (open_orders : list obj) : list obj :=
  match symbol with
  | Some s =>
      if truthy (VStr s) then
        filter (λ order, py_eq_str (getattr order "symbol" VNone) s = true) open_orders
      else open_orders
  | None => open_orders
  end.

Definition cleanup_stale_orders (symbol : option string) (threshold_seconds : Q)
  : M world Z :=
  try_except
    (open_orders ← await_get_orders "open";
     match open_orders with
     | None | Some [] => mret 0
     | Some open_orders =>
         cancelled_count ←
           for_each (target_orders symbol open_orders) (cleanup_step threshold_seconds) 0;
         _ ← (if 0 <? cancelled_count then asyncio_sleep (1 # 2) else mret ());
         mret cancelled_count
     end)
    (λ e, mret 0).

End Cleanup.
End OrderUtils.

(** ** [force_cleanup.py]

    The script builds its own gateway, of a class that lives outside these
    sources; here the gateway is the parameter it is for
    [cleanup_stale_orders].  What the script prints is left out: a run is
    observed through the gateway calls it makes. *)

Module ForceCleanup.
Import OrderUtils.

(** An element of [stale_orders]:
    [(order_id, symbol, order_type, side, age_str)]. *)
Record stale_entry := {
  entry_id : value;
  entry_symbol : value;
  entry_type : value;
  entry_side : value;
  entry_age : string
}.

(** [datetime.now(timezone.utc) - created_at]: a datetime is the only
    value that can be subtracted from a datetime and leave a timedelta. *)
Definition now_minus (now : Z) (created_at : value) : res Z :=
  match created_at with
  | VDatetime d => datetime_sub (Aware now) d
  | _ => Raise TypeError
  end.

Section WithGateway.
Context `{Externals} {W : Type} (gw : gateway W).

(** The body of [for order in open_orders]. *)
Definition analyse_step (order : obj) (stale_orders : list stale_entry)
  : M (W * list event) (list stale_entry) :=
  let order_id := getattr order "id" VNone in
  let symbol := getattr order "symbol" (VStr "unknown") in
  let status := getattr order "status" (VStr "unknown") in
  let created_at := getattr order "created_at" VNone in
  let order_type := getattr order "type" (VStr "unknown") in
  let side := getattr order "side" (VStr "unknown") in
  if truthy created_at then
    try_except
      (now ← utc_now gw;
       td ← lift_res (now_minus now created_at);
       let order_age := total_seconds td in
       let age_minutes := (order_age / 60)%Q in
       let age_str := format_1f age_minutes +:+ " min" in
       if py_eq_str status "new" && Qlt_bool 5 age_minutes then
         mret (stale_orders ++ [{| entry_id := order_id;
                                   entry_symbol := symbol;
                                   entry_type := order_type;
                                   entry_side := side;
                                   entry_age := age_str |}])
       else mret stale_orders)
      (λ e, mret stale_orders)
  else mret stale_orders.

(** The body of [for order_id, symbol, order_type, side, age in
    stale_orders], on the pair of counters [(cancelled, failed)]. *)
Definition cancel_step (entry : stale_entry) (counts : Z * Z)
  : M (W * list event) (Z * Z) :=
  let '(cancelled, failed) := counts in
  try_except
    (response ← await_cancel_order gw (entry_id entry);
     ok ← lift_res (response_ok response);
     if ok : bool then mret (cancelled + 1, failed)
     else
       _ ← lift_res (match response with
                     | Some r => getattr_strict r "error"
                     | None => Ret (VStr "No response")
                     end);
       mret (cancelled, failed + 1))
    (λ e, mret (cancelled, failed + 1)).

Definition force_cleanup_stale_orders : M (W * list event) unit :=
  try_except
    (open_orders ← await_get_orders gw "open";
     match open_orders with
     | None | Some [] => mret ()
     | Some open_orders =>
         stale_orders ← for_each open_orders analyse_step [];
         match stale_orders with
         | [] => mret ()
         | _ =>
             _ ← for_each stale_orders cancel_step (0, 0);
             _ ← asyncio_sleep 2;
             _ ← await_get_orders gw "open";
             mret ()
         end
     end)
    (λ e, mret ()).

End WithGateway.
End ForceCleanup.

(** ** [utils.py]: [ConfigurationValidator]

    Configuration dictionaries are mutable objects: the heap maps an address
    to the dictionary stored there, and the functions receive and return
    addresses. *)

Module ConfigurationValidator.

Abbreviation heap := (gmap loc (gmap string value)) (only parsing).

(** [d.copy()]: a new dictionary object holding the same entries. *)
Definition dict_copy (d : loc) : M heap loc :=
  λ h, match h !! d with
       | Some entries =>
           let fresh_loc := fresh (dom h) in
           (Ret fresh_loc, <[fresh_loc := entries]> h)
       | None => (Raise (RuntimeError "no such object"), h)
       end.

(** [key in d]. *)
Definition dict_contains (d : loc) (key : string) : M heap bool :=
  λ h, match h !! d with
       | Some entries => (Ret (bool_decide (is_Some (entries !! key))), h)
       | None => (Raise (RuntimeError "no such object"), h)
       end.

(** [d[key]]. *)
Definition dict_getitem (d : loc) (key : string) : M heap value :=
  λ h, match h !! d with
       | Some entries =>
           match entries !! key with
           | Some v => (Ret v, h)
           | None => (Raise (KeyError key), h)
           end
       | None => (Raise (RuntimeError "no such object"), h)
       end.


(** [d[key] = v]. *)
Definition dict_setitem (d : loc) (key : string) (v : value) : M heap unit :=
  λ h, match h !! d with
       | Some entries => (Ret (), <[d := <[key := v]> entries]> h)
       | None => (Raise (RuntimeError "no such object"), h)
       end.


Definition get_profit_taking_config : list Q * list Q :=
  let profit_levels := [5.0; 8.0; 12.0; 20.0]%Q in
  let profit_percentages := [0.20; 0.30; 0.50; 0.75]%Q in
  (profit_levels, profit_percentages).

Definition float_list (l : list Q) : value := VList (VFloat <$> l).

Definition validate_configuration (config_dict : loc) : M heap loc :=
  validated ← dict_copy config_dict;
  has_limit ← dict_contains validated "max_active_positions";
  _ ← (if has_limit : bool then
         limit ← dict_getitem validated "max_active_positions";
         low ← lift_res (py_lt_int limit 10);
         if low : bool then dict_setitem validated "max_active_positions" (VInt 30)
         else mret ()
       else mret ());
  let '(profit_levels, profit_percentages) := get_profit_taking_config in
  _ ← dict_setitem validated "profit_taking_levels" (float_list profit_levels);
  _ ← dict_setitem validated "profit_taking_percentages" (float_list profit_percentages);
  mret validated.

End ConfigurationValidator.

(** ** [config.py] *)

Module Config.

Inductive MarketRegime :=
| BULL_TRENDING
| BEAR_TRENDING
| VOLATILE_RANGE
| SECTOR_ROTATION
| LOW_VOLATILITY.

(** The [value] of each member. *)
Definition regime_value (r : MarketRegime) : string :=
  match r with
  | BULL_TRENDING => "bull_trending"
  | BEAR_TRENDING => "bear_trending"
  | VOLATILE_RANGE => "volatile_range"
  | SECTOR_ROTATION => "sector_rotation"
  | LOW_VOLATILITY => "low_volatility"
  end.

#[global] Instance MarketRegime_eq_dec : EqDecision MarketRegime.
Proof. solve_decision. Defined.

#[global] Instance MarketRegime_finite : Finite MarketRegime.
Proof.
  refine {| enum := [BULL_TRENDING; BEAR_TRENDING; VOLATILE_RANGE;
                     SECTOR_ROTATION; LOW_VOLATILITY] |}.
  - by apply (bool_decide_unpack _).
  - intros []; set_solver.
Defined.




(** [API_CONFIG]: the two credentials are read from the environment. *)
Record ApiConfig := {
  alpaca_key_id : option string;
  alpaca_secret_key : option string;
  paper_trading : bool;
  request_timeout : Z;
  max_retries : Z;
  retry_backoff_factor : Z;
  websocket_heartbeat_interval : Z
}.

Definition API_CONFIG (getenv : string → option string) : ApiConfig := {|
  alpaca_key_id := getenv "APCA_API_KEY_ID";
  alpaca_secret_key := getenv "APCA_API_SECRET_KEY";
  paper_trading := true;
  request_timeout := 15;
  max_retries := 3;
  retry_backoff_factor := 2;
  websocket_heartbeat_interval := 30
|}.

Record RateLimitConfig := {
  max_requests_per_minute : Z;
  rate_limit_buffer : Q;
  budget_allocation : gmap string Z;
  priority_system : gmap string Z
}.

Definition RATE_LIMIT_CONFIG : RateLimitConfig := {|
  max_requests_per_minute := 200;
  rate_limit_buffer := 0.85;
  budget_allocation := list_to_map [
    ("broad_scan", 25);
    ("deep_dive", 50);
    ("trade_execution", 35);
    ("position_monitoring", 40);
    ("emergency_reserve", 20)];
  priority_system := list_to_map [
    ("EMERGENCY", 1);
    ("EXECUTION", 2);
    ("MONITORING", 3);
    ("DISCOVERY", 4);
    ("ANALYSIS", 5)]
|}.

Record PruningCriteria := {
  momentum_decay_threshold : Q;
  volume_decline_threshold : Q;
  technical_breakdown : bool;
  max_age_hours : Z
}.

Record AdditionCriteria := {
  min_opportunity_score : Q;
  volume_surge_threshold : Q;
  news_catalyst_weight : Q;
  technical_confirmation : bool
}.

Record WatchlistConfig := {
  max_size : Z;
  pruning_criteria : PruningCriteria;
  addition_criteria : AdditionCriteria
}.

Definition WATCHLIST_CONFIG : WatchlistConfig := {|
  max_size := 25;
  pruning_criteria := {|
    momentum_decay_threshold := 0.5;
    volume_decline_threshold := 0.7;
    technical_breakdown := true;
    max_age_hours := 2 |};
  addition_criteria := {|
    min_opportunity_score := 0.6;
    volume_surge_threshold := 3.0;
    news_catalyst_weight := 0.3;
    technical_confirmation := true |}
|}.

Record RiskConfig := {
  max_position_risk_pct : Q;
  min_position_size_pct : Q;
  max_position_size_pct : Q;
  max_portfolio_risk_pct : Q;
  max_correlation_exposure : Q;
  max_sector_concentration : Q;
  max_daily_drawdown_pct : Q;
  max_weekly_drawdown_pct : Q;
  max_monthly_drawdown_pct : Q;
  stop_loss_pct : Q;
  take_profit_multiple : Q;
  min_risk_reward_ratio : Q;
  min_position_hold_days : Z;
  target_hold_days : Z;
  max_position_hold_days : Z;
  min_holding_period_hours : Z;
  pdt_day_trade_buffer : Z;
  account_size_threshold : Z;
  max_position_loss_pct : Q;
  profit_taking_levels : list Q;
  profit_taking_percentages : list Q;
  position_review_frequency_minutes : Z;
  trailing_stop_activation_pct : Q;
  max_position_age_days : Z;
  concentration_limit_pct : Q;
  extended_hours_emergency_loss_pct : Q
}.

Definition RISK_CONFIG : RiskConfig := {|
  max_position_risk_pct := 3.0;
  min_position_size_pct := 25.0;
  max_position_size_pct := 40.0;
  max_portfolio_risk_pct := 12.0;
  max_correlation_exposure := 0.4;
  max_sector_concentration := 0.4;
  max_daily_drawdown_pct := 6.0;
  max_weekly_drawdown_pct := 12.0;
  max_monthly_drawdown_pct := 20.0;
  stop_loss_pct := 7.5;
  take_profit_multiple := 4.0;
  min_risk_reward_ratio := 3.5;
  min_position_hold_days := 3;
  target_hold_days := 14;
  max_position_hold_days := 30;
  min_holding_period_hours := 24;
  pdt_day_trade_buffer := 1;
  account_size_threshold := 25000;
  max_position_loss_pct := -5.0;
  profit_taking_levels := [10.0; 20.0; 30.0]%Q;
  profit_taking_percentages := [0.25; 0.35; 0.40]%Q;
  position_review_frequency_minutes := 10;
  trailing_stop_activation_pct := 8.0;
  max_position_age_days := 2;
  concentration_limit_pct := 8.0;
  extended_hours_emergency_loss_pct := -6.0
|}.

(** The module-level tables [validate_configuration] reads. *)
Record Tables := {
  api_config : ApiConfig;
  rate_limit_config : RateLimitConfig;
  risk_config : RiskConfig;
  watchlist_config : WatchlistConfig
}.

Definition shipped (getenv : string → option string) : Tables := {|
  api_config := API_CONFIG getenv;
  rate_limit_config := RATE_LIMIT_CONFIG;
  risk_config := RISK_CONFIG;
  watchlist_config := WATCHLIST_CONFIG
|}.

(** [not v] for what [os.getenv] returns. *)
Definition unset (v : option string) : bool :=
  match v with
  | None => true
  | Some s => String.eqb s ""
  end.

(** [sum(d.values())]. *)
Definition sum_values (d : gmap string Z) : Z :=
  map_fold (λ _ quota acc, quota + acc) 0 d.

Definition total_budget (c : RateLimitConfig) : Z :=
  sum_values (budget_allocation c).

Definition max_budget (c : RateLimitConfig) : Z :=
  py_int (inject_Z (max_requests_per_minute c) * rate_limit_buffer c).

Definition budget_error (c : RateLimitConfig) : string :=
  "API budget allocation (" +:+ pretty (total_budget c)
    +:+ ") exceeds limit (" +:+ pretty (max_budget c) +:+ ")".

Definition newline : string := String (Ascii.ascii_of_nat 10) "".

(** The list [errors] as it stands before the final test. *)
Definition validation_errors (t : Tables) : list string :=
  let errors := [] in
  let errors :=
    if unset (alpaca_key_id (api_config t))
    then errors ++ ["APCA_API_KEY_ID environment variable not set"] else errors in
  let errors :=
    if unset (alpaca_secret_key (api_config t))
    then errors ++ ["APCA_API_SECRET_KEY environment variable not set"] else errors in
  let errors :=
    if total_budget (rate_limit_config t) >? max_budget (rate_limit_config t)
    then errors ++ [budget_error (rate_limit_config t)] else errors in
  let errors :=
    if Qlt_bool 5.0 (max_position_risk_pct (risk_config t))
    then errors ++ ["Position risk too high (>5%)"] else errors in
  let errors :=
    if Qlt_bool 10.0 (max_daily_drawdown_pct (risk_config t))
    then errors ++ ["Daily drawdown limit too high (>10%)"] else errors in
  let errors :=
    if max_size (watchlist_config t) >? 50
    then errors ++ ["Watchlist size too large for efficient monitoring"] else errors in
  errors.

Definition validate_configuration (t : Tables) : res bool :=
  let errors := validation_errors t in
  match errors with
  | [] => Ret true
  | _ => Raise (ValueError ("Configuration validation failed:" +:+ newline
                             +:+ String.concat newline errors))
  end.

End Config.

(** ** Sample collaborators

    A concrete parser, formatter and gateway on which the definitions can be
    run.  The theorems below quantify over every [Externals] and every
    gateway; these are only the inputs of the worked examples. *)

Module Sample.

(** Round to the nearest integer, ties to even. *)
Definition round_half_even (q : Q) : Z :=
  let lo := Qfloor q in
  let twice_rest := Qfloor (2 * (q - inject_Z lo)) in
  if twice_rest =? 0 then lo
  else if Qeq_bool (q - inject_Z lo) (1 # 2) then (if Z.even lo then lo else lo + 1)
  else lo + 1.

(** One decimal place, as [format(x, '.1f')] prints a decimal number. *)
Definition decimal_1f (q : Q) : string :=
  let tenths := round_half_even (q * 10) in
  (if tenths <? 0 then "-" else "")
    +:+ pretty (Z.abs tenths `quot` 10) +:+ "." +:+ pretty (Z.abs tenths `rem` 10).

(** A parser that knows two spellings of one instant and rejects the rest. *)
Definition parse_known (s : string) : res datetime :=
  if String.eqb s "2025-01-01T00:00:00+00:00" then Ret (Aware 1735689600000000)
  else if String.eqb s "2025-01-01T00:00:00" then Ret (Naive 1735689600000000)
  else Raise ParserError.

Definition externals : Externals := {|
  dateutil_parse := parse_known;
  format_1f := decimal_1f;
  str_other := λ _, "<object>"
|}.

(** An order placed at the known instant. *)
Definition order (id symbol status : string) : obj :=
  list_to_map [
    ("id", VStr id);
    ("symbol", VStr symbol);
    ("status", VStr status);
    ("created_at", VStr "2025-01-01T00:00:00+00:00")].

Definition response (success : bool) : obj :=
  list_to_map [("success", VBool success)].

(** An order as the client library delivers it, its creation time a
    [datetime] at the known instant; [VNone] stands for a missing id. *)
Definition dated_order (id : value) (symbol status : string) : obj :=
  list_to_map [
    ("id", id);
    ("symbol", VStr symbol);
    ("status", VStr status);
    ("created_at", VDatetime (Aware 1735689600000000))].

(** A brokerage whose world is the clock alone, one second per call and
    one millisecond per reading of the clock.  Cancelling "o2" raises,
    cancelling "o3" is refused, cancelling "o4" yields no response; every
    other cancellation succeeds. *)
Definition broker (open_orders : res (option (list obj))) : OrderUtils.gateway Z := {|
  OrderUtils.clock := λ w, w;
  OrderUtils.tick := λ w, w + 1000;
  OrderUtils.get_orders := λ status w, (open_orders, w + 1000000);
  OrderUtils.cancel_order := λ order_id w,
    (match order_id with
     | VStr "o2" => Raise (RuntimeError "connection reset")
     | VStr "o3" => Ret (Some (response false))
     | VStr "o4" => Ret None
     | _ => Ret (Some (response true))
     end, w + 1000000)
|}.

(** 150 seconds after the known instant. *)
Definition later : Z := 1735689750000000.

(** Six open orders, all placed at the known instant; one is filled. *)
Definition book : list obj :=
  [ order "o1" "AAPL" "new";
    order "o2" "AAPL" "new";
    order "o3" "MSFT" "new";
    order "o4" "MSFT" "new";
    order "o6" "AAPL" "filled";
    order "o5" "MSFT" "new" ].

(** An order whose creation time is a [datetime] without a timezone,
    2025-01-01 00:00:00. *)
Definition naive_order : obj :=
  list_to_map [
    ("id", VStr "o1");
    ("symbol", VStr "AAPL");
    ("status", VStr "new");
    ("created_at", VDatetime (Naive 1735689600000000))].

End Sample.

(** ** The specification's vocabulary

    Stated after the specification's sentences, to be compared with what the
    code computes. *)

Module Spec.
Section WithExternals.
Context `{Externals}.

(** A creation time is parseable when it is a [datetime] already or a string
    the parser accepts. *)
Definition parseable (created_at : value) (d : datetime) : Prop :=
  created_at = VDatetime d ∨ ∃ s, created_at = VStr s ∧ dateutil_parse s = Ret d.

(** The instant a datetime denotes once normalised to one representation,
    microseconds since the epoch in UTC: an aware datetime is that instant
    already, a naive one is read as UTC wall-clock time, the zone of the
    clock it is compared with. *)
Definition normalised (d : datetime) : Z :=
  match d with
  | Aware utc_us => utc_us
  | Naive wall_us => wall_us
  end.

(** The age of [d] at the instant [now], in seconds.  Every datetime has
    one. *)
Definition age_seconds (now : Z) (d : datetime) : Q :=
  total_seconds (now - normalised d).

(** "status == new AND age(now - created_at) exceeds a threshold", the
    creation time being present and parseable. *)
Definition stale (now : Z) (order : obj) (threshold : Q) : Prop :=
  order !! "status" = Some (VStr "new") ∧
  ∃ created_at d,
    order !! "created_at" = Some created_at ∧
    parseable created_at d ∧
    (threshold < age_seconds now d)%Q.

Definition timezone_aware (d : datetime) : bool :=
  match d with
  | Aware _ => true
  | Naive _ => false
  end.

(** The same, with one more condition: the creation time carries a
    timezone. *)
Definition stale_aware (now : Z) (order : obj) (threshold : Q) : Prop :=
  order !! "status" = Some (VStr "new") ∧
  ∃ created_at d,
    order !! "created_at" = Some created_at ∧
    parseable created_at d ∧
    timezone_aware d = true ∧
    (threshold < age_seconds now d)%Q.





(** The order ids a trace asked the gateway to cancel, in order. *)
Definition cancelled_ids (trace : list OrderUtils.event) : list value :=
  omap (λ ev, match ev with
              | OrderUtils.CancelOrder order_id _ => Some order_id
              | _ => None
              end) trace.

Section WithGateway.
Context {W : Type} (gw : OrderUtils.gateway W).





End WithGateway.
End WithExternals.









End Spec.

(** * Properties *)

(** ** Arithmetic on the rational model of floats *)

Lemma Qlt_bool_iff (x y : Q) : Qlt_bool x y = true ↔ (x < y)%Q.
Proof.
  unfold Qlt_bool. rewrite negb_true_iff, <- not_true_iff_false, Qle_bool_iff.
  split; [apply Qnot_le_lt | apply Qlt_not_le].
Qed.


Lemma total_seconds_lt (a b : Z) : a < b ↔ (total_seconds a < total_seconds b)%Q.
Proof. unfold total_seconds, Qlt; simpl. lia. Qed.

(** ** [DateTimeUtils] *)

Section DateTimeFacts.
Context `{Externals}.
Import DateTimeUtils.

Lemma parse_datetime_total (x : value) : ∃ r, parse_datetime x = Ret r.
Proof.
  destruct x; simpl; eauto.
  destruct (dateutil_parse s); simpl; eauto.
Qed.

Lemma parse_datetime_str (s : string) :
  parse_datetime (VStr s)
  = Ret (match dateutil_parse s with Ret d => Some d | Raise _ => None end).
Proof. simpl. by destruct (dateutil_parse s). Qed.

Lemma calculate_age_seconds_total (now : Z) (x : value) :
  ∃ r, calculate_age_seconds now x = Ret r.
Proof.
  unfold calculate_age_seconds.
  destruct (parse_datetime_total x) as [[[t|t]|] ->]; simpl; eauto.
Qed.

Lemma calculate_age_seconds_aware (now : Z) (x : value) (t : Z) :
  parse_datetime x = Ret (Some (Aware t)) →
  calculate_age_seconds now x = Ret (Some (total_seconds (now - t))).
Proof. unfold calculate_age_seconds. by intros ->. Qed.

Lemma calculate_age_seconds_some (now : Z) (x : value) (a : Q) :
  calculate_age_seconds now x = Ret (Some a) →
  ∃ t, parse_datetime x = Ret (Some (Aware t)) ∧ a = total_seconds (now - t).
Proof.
  unfold calculate_age_seconds.
  destruct (parse_datetime_total x) as [[[t|t]|] ->]; simpl; [|done..].
  intros [= <-]. eauto.
Qed.

End DateTimeFacts.

(** ** [OrderUtils.is_order_stale] *)

Section StalenessFacts.
Context `{Externals}.
Import DateTimeUtils OrderUtils.

Lemma parse_datetime_some (x : value) (d : datetime) :
  parse_datetime x = Ret (Some d) ↔ Spec.parseable x d.
Proof.
  split.
  - destruct x; simpl; try done.
    + destruct (dateutil_parse s) eqn:E; simpl; [|done].
      intros [= <-]. right. eauto.
    + intros [= <-]. by left.
  - intros [-> | (s & -> & E)]; simpl; [done|]. by rewrite E.
Qed.

Lemma py_ne_str_false (v : value) (s : string) :
  py_ne_str v s = false ↔ v = VStr s.
Proof.
  unfold py_ne_str, py_eq_str. rewrite negb_false_iff.
  destruct v; try (split; [done | intros [=]]).
  rewrite String.eqb_eq. split; [by intros -> | by intros [= ->]].
Qed.

Lemma getattr_truthy (o : obj) (name : string) :
  truthy (getattr o name VNone) = true → o !! name = Some (getattr o name VNone).
Proof. unfold getattr. by destruct (o !! name). Qed.

Lemma getattr_is (o : obj) (name : string) (v : value) :
  v ≠ VNone → getattr o name VNone = v ↔ o !! name = Some v.
Proof.
  unfold getattr. intros Hv. destruct (o !! name); simpl; split; congruence.
Qed.

(** The verdict, branch by branch, once the clock has been read. *)
Lemma is_order_stale_unfold (now : Z) (order : obj) (threshold : Q) :
  is_order_stale now order threshold =
    let status := getattr order "status" VNone in
    let created_at := getattr order "created_at" VNone in
    if py_ne_str status "new" then
      Ret (false, "status is '" +:+ py_str status +:+ "', not 'new'")
    else if negb (truthy created_at) then Ret (false, "no creation time available")
    else match calculate_age_seconds now created_at with
         | Ret (Some age) =>
             if Qlt_bool threshold age then
               Ret (true, "age " +:+ format_age age +:+ " exceeds "
                            +:+ format_1f (threshold / 60) +:+ "m threshold")
             else Ret (false, "age " +:+ format_age age +:+ " under threshold")
         | _ => Ret (false, "could not calculate age")
         end.
Proof.
  unfold is_order_stale. cbv zeta.
  destruct (py_ne_str _ _); [done|].
  destruct (negb _); [done|].
  by destruct (calculate_age_seconds_total now (getattr order "created_at" VNone))
    as [[a|] ->].
Qed.

Lemma is_order_stale_total (now : Z) (order : obj) (threshold : Q) :
  ∃ verdict reason, is_order_stale now order threshold = Ret (verdict, reason).
Proof.
  rewrite is_order_stale_unfold. cbv zeta.
  repeat (case_match; eauto).
Qed.

(** What a stale verdict says about the order, with the reason it carries. *)
Lemma is_order_stale_true (now : Z) (order : obj) (threshold : Q) (reason : string) :
  is_order_stale now order threshold = Ret (true, reason) →
  ∃ t,
    getattr order "status" VNone = VStr "new" ∧
    parse_datetime (getattr order "created_at" VNone) = Ret (Some (Aware t)) ∧
    truthy (getattr order "created_at" VNone) = true ∧
    (threshold < total_seconds (now - t))%Q ∧
    reason = "age " +:+ format_age (total_seconds (now - t)) +:+ " exceeds "
               +:+ format_1f (threshold / 60) +:+ "m threshold".
Proof.
  rewrite is_order_stale_unfold. cbv zeta.
  destruct (py_ne_str _ _) eqn:Hs; [done|].
  destruct (truthy _) eqn:Ht; simpl; [|done].
  destruct (calculate_age_seconds _ _) as [[a|]|] eqn:Ha; [|done..].
  apply calculate_age_seconds_some in Ha as (t & Hp & ->).
  destruct (Qlt_bool _ _) eqn:Hlt; [|done].
  intros [= <-]. exists t.
  apply py_ne_str_false in Hs. apply Qlt_bool_iff in Hlt. done.
Qed.

(** The converse: a parsed, timezone-aware creation time older than the
    threshold on an order whose status is 'new'. *)
Lemma is_order_stale_intro (now : Z) (order : obj) (threshold : Q) (t : Z) :
  getattr order "status" VNone = VStr "new" →
  truthy (getattr order "created_at" VNone) = true →
  parse_datetime (getattr order "created_at" VNone) = Ret (Some (Aware t)) →
  (threshold < total_seconds (now - t))%Q →
  is_order_stale now order threshold
  = Ret (true, "age " +:+ format_age (total_seconds (now - t)) +:+ " exceeds "
                 +:+ format_1f (threshold / 60) +:+ "m threshold").
Proof.
  intros Hs Ht Hp Hlt. rewrite is_order_stale_unfold. cbv zeta.
  apply py_ne_str_false in Hs as ->. rewrite Ht. simpl.
  rewrite (calculate_age_seconds_aware _ _ _ Hp).
  apply Qlt_bool_iff in Hlt as ->. done.
Qed.

Lemma parseable_truthy (x : value) (d : datetime) :
  (∀ d, dateutil_parse "" ≠ Ret d) → Spec.parseable x d → truthy x = true.
Proof.
  intros Hempty [-> | (s & -> & E)]; simpl; [done|].
  destruct s; [by apply Hempty in E | done].
Qed.

Lemma stale_aware_iff (now : Z) (order : obj) (threshold : Q) :
  (∀ d, dateutil_parse "" ≠ Ret d) →
  (∃ reason, is_order_stale now order threshold = Ret (true, reason))
  ↔ Spec.stale_aware now order threshold.
Proof.
  intros Hempty. split.
  - intros [reason (t & Hs & Hp & Ht & Hlt & _)%is_order_stale_true].
    split; [by apply getattr_is in Hs|].
    exists (getattr order "created_at" VNone), (Aware t).
    split_and!; [by apply getattr_truthy | by apply parse_datetime_some | done..].
  - intros (Hs & c & d & Hc & Hp & Haware & Hlt).
    destruct d as [t|t]; [|done].
    assert (getattr order "created_at" VNone = c) as Hget
      by (unfold getattr; by rewrite Hc).
    eexists. apply (is_order_stale_intro _ _ _ t); rewrite ?Hget.
    + by apply getattr_is.
    + by eapply parseable_truthy.
    + by apply parse_datetime_some.
    + done.
Qed.

(** A creation time without a timezone never gives a stale verdict: its
    subtraction from the UTC clock raises, and the age is unknown. *)
Lemma naive_is_not_stale (now : Z) (order : obj) (threshold : Q)
    (created_at : value) (wall_us : Z) :
  order !! "created_at" = Some created_at →
  Spec.parseable created_at (Naive wall_us) →
  ∃ reason, is_order_stale now order threshold = Ret (false, reason).
Proof.
  intros Hc Hp%parse_datetime_some.
  destruct (is_order_stale_total now order threshold) as ([|] & reason & E); [|eauto].
  apply is_order_stale_true in E as (t & _ & Hp' & _).
  unfold getattr in Hp'. rewrite Hc in Hp'. simpl in Hp'. congruence.
Qed.

End StalenessFacts.

Section StalenessClaims.
Context `{Externals}.
Import DateTimeUtils OrderUtils.

(** C1, amended.  [is_order_stale] answers stale exactly when the order's
    status is 'new', its creation time is present, parseable and carries a
    timezone, and its age exceeds the threshold; a creation time that is or
    parses to a datetime without a timezone never gives a stale verdict.
    The function always answers; the call without a threshold uses 120
    seconds.  When the status is not 'new' the reason quotes the status, and
    a stale verdict's reason quotes the age and the threshold.  An order
    with status 'new' whose timezone-aware creation time lies 150 seconds
    back is stale under the threshold 120; an order with status 'filled' is
    not, whatever its age.  (The parser is assumed to reject the empty
    string, as [dateutil] does.) *)
Theorem is_order_stale_characterised_aware :
  (∀ d, dateutil_parse "" ≠ Ret d) →
  (∀ now order threshold,
     ((∃ reason, is_order_stale now order threshold = Ret (true, reason))
        ↔ Spec.stale_aware now order threshold) ∧
     (∀ created_at wall_us,
        order !! "created_at" = Some created_at →
        Spec.parseable created_at (Naive wall_us) →
        ∃ reason, is_order_stale now order threshold = Ret (false, reason)) ∧
     (∃ verdict reason, is_order_stale now order threshold = Ret (verdict, reason)) ∧
     (getattr order "status" VNone ≠ VStr "new" →
        is_order_stale now order threshold
        = Ret (false, "status is '" +:+ py_str (getattr order "status" VNone)
                        +:+ "', not 'new'")) ∧
     (∀ reason, is_order_stale now order threshold = Ret (true, reason) →
        ∃ age,
          calculate_age_seconds now (getattr order "created_at" VNone) = Ret (Some age) ∧
          (threshold < age)%Q ∧
          reason = "age " +:+ format_age age +:+ " exceeds "
                     +:+ format_1f (threshold / 60) +:+ "m threshold")) ∧
  (default_threshold_seconds = 120%Q ∧
   ∀ now order, is_order_stale_default now order = is_order_stale now order 120) ∧
  (∀ now order created_at d,
     order !! "status" = Some (VStr "new") →
     order !! "created_at" = Some created_at →
     Spec.parseable created_at d →
     Spec.timezone_aware d = true →
     now - Spec.normalised d = 150000000 →
     Spec.age_seconds now d == 150 ∧
     is_order_stale now order 120
     = Ret (true, "age " +:+ format_age (Spec.age_seconds now d) +:+ " exceeds "
                    +:+ format_1f (120 / 60) +:+ "m threshold")) ∧
  (∀ now order threshold,
     order !! "status" = Some (VStr "filled") →
     is_order_stale now order threshold
     = Ret (false, "status is 'filled', not 'new'")).
Proof.
  intros Hempty. split_and!.
  - intros now order threshold. split_and!.
    + by apply stale_aware_iff.
    + apply naive_is_not_stale.
    + apply is_order_stale_total.
    + intros Hs. rewrite is_order_stale_unfold. cbv zeta.
      destruct (py_ne_str _ _) eqn:E; [done|]. by apply py_ne_str_false in E.
    + intros reason (t & _ & Hp & _ & Hlt & ->)%is_order_stale_true.
      exists (total_seconds (now - t)).
      by rewrite (calculate_age_seconds_aware _ _ _ Hp).
  - done.
  - done.
  - intros now order created_at d Hs Hc Hp Haware Hage.
    destruct d as [t|t]; [|done].
    assert (getattr order "created_at" VNone = created_at) as Hget
      by (unfold getattr; by rewrite Hc).
    unfold Spec.age_seconds. simpl in Hage |- *. split; [by rewrite Hage|].
    apply is_order_stale_intro; rewrite ?Hget.
    + unfold getattr. by rewrite Hs.
    + by eapply parseable_truthy.
    + by apply parse_datetime_some.
    + by rewrite Hage.
  - intros now order threshold Hs.
    rewrite is_order_stale_unfold. unfold getattr. by rewrite Hs.
Qed.

(** C2.  An order whose creation time is missing, [None] or a string the
    parser rejects gets a non-stale verdict with one of the three
    explanatory reasons, and nothing is raised; [parse_datetime] never
    raises and returns [None] on whatever is neither a datetime nor a
    parseable string; [calculate_age_seconds] never raises and returns
    [None] when parsing fails or when the subtraction raises. *)
Theorem unknown_age_is_not_stale :
  (∀ now order threshold,
     (order !! "created_at" = None ∨
      order !! "created_at" = Some VNone ∨
      ∃ s e, order !! "created_at" = Some (VStr s) ∧ dateutil_parse s = Raise e) →
     ∃ reason,
       is_order_stale now order threshold = Ret (false, reason) ∧
       (reason = "status is '" +:+ py_str (getattr order "status" VNone) +:+ "', not 'new'" ∨
        reason = "no creation time available" ∨
        reason = "could not calculate age")) ∧
  (∀ x, ∃ r, parse_datetime x = Ret r) ∧
  (∀ x, (∀ d, x ≠ VDatetime d) →
        (∀ s, x = VStr s → ∃ e, dateutil_parse s = Raise e) →
        parse_datetime x = Ret None) ∧
  (∀ now x, ∃ r, calculate_age_seconds now x = Ret r) ∧
  (∀ now x, parse_datetime x = Ret None → calculate_age_seconds now x = Ret None) ∧
  (∀ now x d e, parse_datetime x = Ret (Some d) →
                datetime_sub (Aware now) d = Raise e →
                calculate_age_seconds now x = Ret None).
Proof.
  split_and!.
  - intros now order threshold Hc.
    rewrite is_order_stale_unfold. cbv zeta.
    destruct (py_ne_str _ _); [eauto|].
    unfold getattr at 1 2.
    destruct Hc as [-> | [-> | (s & e & -> & E)]]; simpl; [eauto..|].
    destruct (negb _); [eauto|].
    unfold calculate_age_seconds. rewrite parse_datetime_str, E. simpl. eauto.
  - apply parse_datetime_total.
  - intros x Hd Hs. destruct x; simpl; try done.
    + by destruct (Hs s eq_refl) as [e ->].
    + by destruct (Hd d).
  - apply calculate_age_seconds_total.
  - intros now x Hp. unfold calculate_age_seconds. by rewrite Hp.
  - intros now x d e Hp Hsub. unfold calculate_age_seconds.
    rewrite Hp. by destruct d.
Qed.

(** C5.  For a fixed threshold staleness is monotonic in age: an order found
    stale at one instant is found stale at every later instant, and, in
    terms of the ages themselves, stale at age A implies stale at any age
    B > A of the same order. *)
Theorem staleness_monotonic (order : obj) (threshold : Q) :
  (∀ now_a now_b,
     now_a < now_b →
     (∃ reason, is_order_stale now_a order threshold = Ret (true, reason)) →
     ∃ reason, is_order_stale now_b order threshold = Ret (true, reason)) ∧
  (∀ now_a now_b age_a age_b,
     order !! "status" = Some (VStr "new") →
     calculate_age_seconds now_a (getattr order "created_at" VNone) = Ret (Some age_a) →
     calculate_age_seconds now_b (getattr order "created_at" VNone) = Ret (Some age_b) →
     (age_a < age_b)%Q →
     (∃ reason, is_order_stale now_a order threshold = Ret (true, reason)) →
     ∃ reason, is_order_stale now_b order threshold = Ret (true, reason)).
Proof.
  split.
  - intros now_a now_b Hlt [reason (t & Hs & Hp & Ht & Hage & _)%is_order_stale_true].
    eexists. apply (is_order_stale_intro _ _ _ t); try done.
    eapply Qlt_trans; [exact Hage|]. apply (proj1 (total_seconds_lt _ _)). lia.
  - intros now_a now_b age_a age_b _ Ha Hb Hlt
      [reason (t & Hs & Hp & Ht & Hage & _)%is_order_stale_true].
    apply calculate_age_seconds_some in Ha as (ta & Hpa & ->).
    apply calculate_age_seconds_some in Hb as (tb & Hpb & ->).
    assert (ta = t) as -> by congruence. assert (tb = t) as -> by congruence.
    eexists. apply (is_order_stale_intro _ _ _ t); try done.
    by eapply Qlt_trans.
Qed.

(** C9.  [parse_datetime] returns a datetime argument unchanged, returns
    [None] on [None], and applying it to its own result changes nothing. *)
Theorem parse_datetime_idempotent :
  (∀ d, parse_datetime (VDatetime d) = Ret (Some d)) ∧
  parse_datetime VNone = Ret None ∧
  (∀ x, (r ← parse_datetime x; parse_datetime (optional_datetime r)) = parse_datetime x).
Proof.
  split_and!; [done..|].
  intros x. by destruct (parse_datetime_total x) as [[d|] ->].
Qed.

End StalenessClaims.

(** *** Worked instances, on the sample parser and formatter *)

Section StalenessInstances.
Import DateTimeUtils OrderUtils.
#[local] Existing Instance Sample.externals.

Lemma sample_parser_rejects_empty (d : datetime) : dateutil_parse "" ≠ Ret d.
Proof. vm_compute. discriminate. Qed.

Lemma is_order_stale_characterised_aware_witness :
  is_order_stale Sample.later (Sample.order "o1" "AAPL" "new") 120
  = Ret (true, "age 2.5m exceeds 2.0m threshold") ∧
  is_order_stale Sample.later (Sample.order "o1" "AAPL" "filled") 120
  = Ret (false, "status is 'filled', not 'new'").
Proof.
  destruct (is_order_stale_characterised_aware sample_parser_rejects_empty)
    as (_ & _ & Hnew & Hfilled).
  split.
  - refine (proj2 (Hnew Sample.later _ (VStr "2025-01-01T00:00:00+00:00")
                     (Aware 1735689600000000) _ _ _ _ _)).
    + vm_compute. reflexivity.
    + vm_compute. reflexivity.
    + right. eexists. split; reflexivity.
    + reflexivity.
    + vm_compute. reflexivity.
  - refine (Hfilled Sample.later _ 120%Q _). vm_compute. reflexivity.
Defined.

(** C1, as stated, fails.  The order has status 'new' and a creation time
    that is present and parseable (a [datetime] already) and lies 150
    seconds back, more than the threshold of 120; the verdict is not stale,
    because the creation time has no timezone. *)
Lemma naive_order_is_old_but_not_stale :
  Sample.naive_order !! "status" = Some (VStr "new") ∧
  Sample.naive_order !! "created_at" = Some (VDatetime (Naive 1735689600000000)) ∧
  Spec.parseable (VDatetime (Naive 1735689600000000)) (Naive 1735689600000000) ∧
  Spec.age_seconds Sample.later (Naive 1735689600000000) == 150 ∧
  Spec.stale Sample.later Sample.naive_order 120 ∧
  is_order_stale Sample.later Sample.naive_order 120
  = Ret (false, "could not calculate age") ∧
  ¬ ((∃ reason, is_order_stale Sample.later Sample.naive_order 120 = Ret (true, reason))
     ↔ Spec.stale Sample.later Sample.naive_order 120).
Proof.
  assert (Spec.stale Sample.later Sample.naive_order 120) as Hstale.
  { split; [by vm_compute|].
    exists (VDatetime (Naive 1735689600000000)), (Naive 1735689600000000).
    split_and!; [by vm_compute | by left | by vm_compute]. }
  assert (is_order_stale Sample.later Sample.naive_order 120
          = Ret (false, "could not calculate age")) as Hcode by (by vm_compute).
  split_and!; [by vm_compute | by vm_compute | by left | by vm_compute | done..|].
  intros [_ Hback]. destruct (Hback Hstale) as [reason E]. congruence.
Qed.

Lemma unknown_age_is_not_stale_witness :
  ∃ reason,
    is_order_stale Sample.later
      (<["created_at" := VStr "yesterday"]> (Sample.order "o1" "AAPL" "new")) 120
    = Ret (false, reason) ∧
    (reason = "status is 'new', not 'new'" ∨
     reason = "no creation time available" ∨
     reason = "could not calculate age").
Proof.
  refine (proj1 unknown_age_is_not_stale Sample.later _ 120%Q _).
  right. right. exists "yesterday", ParserError.
  split; vm_compute; reflexivity.
Defined.

Lemma staleness_monotonic_witness :
  ∃ reason,
    is_order_stale (Sample.later + 1000000) (Sample.order "o1" "AAPL" "new") 120
    = Ret (true, reason).
Proof.
  refine (proj1 (staleness_monotonic (Sample.order "o1" "AAPL" "new") 120%Q)
            Sample.later (Sample.later + 1000000) _ _).
  - reflexivity.
  - eexists. vm_compute. reflexivity.
Defined.

Example stale_after_150_seconds :
  is_order_stale Sample.later (Sample.order "o1" "AAPL" "new") 120
  = Ret (true, "age 2.5m exceeds 2.0m threshold").
Proof. vm_compute. reflexivity. Qed.

Example fresh_after_90_seconds :
  is_order_stale (Sample.later - 60000000) (Sample.order "o1" "AAPL" "new") 120
  = Ret (false, "age 1.5m under threshold").
Proof. vm_compute. reflexivity. Qed.

Example naive_creation_time_has_no_age :
  is_order_stale Sample.later
    (<["created_at" := VStr "2025-01-01T00:00:00"]> (Sample.order "o1" "AAPL" "new")) 120
  = Ret (false, "could not calculate age").
Proof. vm_compute. reflexivity. Qed.

Example empty_creation_time :
  is_order_stale Sample.later
    (<["created_at" := VStr ""]> (Sample.order "o1" "AAPL" "new")) 120
  = Ret (false, "no creation time available").
Proof. vm_compute. reflexivity. Qed.

Example status_none_is_quoted :
  is_order_stale Sample.later ∅ 120 = Ret (false, "status is 'None', not 'new'").
Proof. vm_compute. reflexivity. Qed.

End StalenessInstances.

(** ** [config.py] *)

Section ConfigFacts.
Import Config.







(** With the emergency reserve raised from 20 to 21 the quotas sum to 171,
    one more than the bound, and start-up is refused. *)
Example over_budget_by_one :
  validate_configuration
    {| api_config := API_CONFIG (λ _, Some "key");
       rate_limit_config :=
         {| max_requests_per_minute := 200;
            rate_limit_buffer := 0.85;
            budget_allocation :=
              <["emergency_reserve" := 21]> (budget_allocation RATE_LIMIT_CONFIG);
            priority_system := priority_system RATE_LIMIT_CONFIG |};
       risk_config := RISK_CONFIG;
       watchlist_config := WATCHLIST_CONFIG |}
  = Raise (ValueError ("Configuration validation failed:" +:+ newline
                         +:+ "API budget allocation (171) exceeds limit (170)")).
Proof. by vm_compute. Qed.



End ConfigFacts.

(** ** Profit-taking ladders *)

Section LadderFacts.
Import Config ConfigurationValidator.





End LadderFacts.

(** ** [ConfigurationValidator.validate_configuration] *)

Section ValidatorFacts.
Import ConfigurationValidator.

Lemma fresh_not_allocated (h : gmap loc (gmap string value)) :
  h !! fresh (dom h) = None.
Proof. apply not_elem_of_dom, is_fresh. Qed.

(** The run in full: the address returned and the heap left behind. *)
Lemma validate_configuration_run (h : gmap loc (gmap string value)) (config_dict : loc)
    (entries : gmap string value) :
  h !! config_dict = Some entries →
  let validated := fresh (dom h) in
  let standardize (d : gmap string value) :=
    <["profit_taking_percentages" := float_list get_profit_taking_config.2]>
      (<["profit_taking_levels" := float_list get_profit_taking_config.1]> d) in
  validate_configuration config_dict h =
    match entries !! "max_active_positions" with
    | Some limit =>
        match py_lt_int limit 10 with
        | Ret low =>
            (Ret validated,
             <[validated :=
                 standardize (if low then <["max_active_positions" := VInt 30]> entries
                              else entries)]> h)
        | Raise e => (Raise e, <[validated := entries]> h)
        end
    | None => (Ret validated, <[validated := standardize entries]> h)
    end.
Proof.
  intros Hin validated standardize. unfold validate_configuration.
  unfold mbind, M_bind, mret, M_ret, dict_copy. rewrite Hin.
  unfold dict_contains. rewrite lookup_insert_eq.
  destruct (entries !! "max_active_positions") as [limit|] eqn:Hlimit.
  - rewrite bool_decide_eq_true_2 by eauto.
    unfold dict_getitem. rewrite lookup_insert_eq, Hlimit.
    unfold lift_res. destruct (py_lt_int limit 10) as [[|]|e]; [| |done].
    + unfold dict_setitem. simpl.
      rewrite !lookup_insert_eq, !insert_insert_eq. done.
    + unfold dict_setitem. simpl.
      rewrite !lookup_insert_eq, !insert_insert_eq. done.
  - rewrite bool_decide_eq_false_2 by (by intros [? ?]).
    unfold dict_setitem. simpl.
    rewrite !lookup_insert_eq, !insert_insert_eq. done.
Qed.





(** A limit of 5 is raised to 30, the ladder is replaced, the rest is kept,
    and the caller's dictionary at address 1 is as it was. *)
Example validate_configuration_low_limit :
  let entries : gmap string value :=
    {[ "max_active_positions" := VInt 5;
       "max_watchlist_size" := VInt 15;
       "profit_taking_levels" := float_list [10.0; 20.0; 30.0]%Q ]} in
  ∃ validated h',
    validate_configuration 1%positive {[ 1%positive := entries ]} = (Ret validated, h') ∧
    h' !! 1%positive = Some entries ∧
    h' !! validated
    = Some {[ "max_active_positions" := VInt 30;
              "max_watchlist_size" := VInt 15;
              "profit_taking_levels" := float_list [5.0; 8.0; 12.0; 20.0]%Q;
              "profit_taking_percentages" := float_list [0.20; 0.30; 0.50; 0.75]%Q ]}.
Proof.
  intros entries. eexists _, _.
  rewrite (validate_configuration_run _ _ entries) by apply lookup_singleton_eq.
  cbv zeta.
  change (entries !! "max_active_positions") with (Some (VInt 5)).
  cbn [py_lt_int Z.ltb Z.compare Pos.compare Pos.compare_cont].
  assert (fresh (dom ({[ 1%positive := entries ]} : gmap loc (gmap string value)))
          ≠ 1%positive) as Hne.
  { intros E. pose proof (fresh_not_allocated {[ 1%positive := entries ]}) as Hf.
    rewrite E, lookup_singleton_eq in Hf. done. }
  split_and!.
  - done.
  - by rewrite lookup_insert_ne.
  - rewrite lookup_insert_eq. f_equal.
Qed.

Example validate_configuration_high_limit_kept :
  let entries : gmap string value := {[ "max_active_positions" := VInt 50 ]} in
  ∃ validated h',
    validate_configuration 1%positive {[ 1%positive := entries ]} = (Ret validated, h') ∧
    (h' !! validated) ≫= (.!! "max_active_positions") = Some (VInt 50).
Proof.
  intros entries. eexists _, _.
  rewrite (validate_configuration_run _ _ entries) by apply lookup_singleton_eq.
  cbv zeta.
  change (entries !! "max_active_positions") with (Some (VInt 50)).
  cbn [py_lt_int Z.ltb Z.compare Pos.compare Pos.compare_cont].
  split; [done|]. by rewrite lookup_insert_eq.
Qed.

End ValidatorFacts.

(** ** [OrderUtils.cleanup_stale_orders] *)

Section CleanupFacts.
Context `{Externals} {W : Type} (gw : OrderUtils.gateway W).
Import DateTimeUtils OrderUtils.














End CleanupFacts.

(** *** Worked instances, on the sample brokerage *)

Section CleanupInstances.
Import DateTimeUtils OrderUtils.
#[local] Existing Instance Sample.externals.




(** One run over the whole book: the second call raises, the third is
    refused, the fourth yields no response, the filled order is passed over,
    and the first and last cancellations count. *)
Example cleanup_whole_book :
  cleanup_stale_orders (Sample.broker (Ret (Some Sample.book))) None 120
    (Sample.later, [])
  = (Ret 2,
     (Sample.later + 6006000,
      [ GetOrders "open" (Ret (Some Sample.book));
        CancelOrder (VStr "o1") (Ret (Some (Sample.response true)));
        CancelOrder (VStr "o2") (Raise (RuntimeError "connection reset"));
        CancelOrder (VStr "o3") (Ret (Some (Sample.response false)));
        CancelOrder (VStr "o4") (Ret None);
        CancelOrder (VStr "o5") (Ret (Some (Sample.response true)));
        Sleep (1 # 2) ])).
Proof. by vm_compute. Qed.

Example cleanup_one_symbol :
  (cleanup_stale_orders (Sample.broker (Ret (Some Sample.book))) (Some "AAPL") 120
     (Sample.later, [])).1
  = Ret 1 ∧
  Spec.cancelled_ids
    (cleanup_stale_orders (Sample.broker (Ret (Some Sample.book))) (Some "AAPL") 120
       (Sample.later, [])).2.2
  = [VStr "o1"; VStr "o2"].
Proof. split; by vm_compute. Qed.

Example cleanup_nothing_stale :
  cleanup_stale_orders (Sample.broker (Ret (Some Sample.book))) None 120
    (Sample.later - 60000000, [])
  = (Ret 0, (Sample.later - 58994000, [GetOrders "open" (Ret (Some Sample.book))])).
Proof. by vm_compute. Qed.

End CleanupInstances.

(** ** Further properties of [is_order_stale] and [calculate_age_seconds] *)

Section StalenessExtras.
Context `{Externals}.
Import DateTimeUtils OrderUtils.





End StalenessExtras.

Section StalenessExtrasInstances.
Import DateTimeUtils OrderUtils.
#[local] Existing Instance Sample.externals.





End StalenessExtrasInstances.

(** ** Further properties of [cleanup_stale_orders] *)

Section CleanupExtras.
Context `{Externals} {W : Type} (gw : OrderUtils.gateway W).
Import DateTimeUtils OrderUtils.








End CleanupExtras.

Section CleanupExtrasInstances.
Import DateTimeUtils OrderUtils.
#[local] Existing Instance Sample.externals.


End CleanupExtrasInstances.

(** ** Further properties of [ConfigurationValidator] *)

Section ValidatorExtras.
Import ConfigurationValidator.









End ValidatorExtras.

(** ** Further properties of [config.validate_configuration] *)

Section ConfigExtras.
Import Config.






(** With no credentials in the environment both are reported, in order. *)
Example no_credentials :
  validate_configuration (shipped (λ _, None))
  = Raise (ValueError ("Configuration validation failed:" +:+ newline
                         +:+ "APCA_API_KEY_ID environment variable not set" +:+ newline
                         +:+ "APCA_API_SECRET_KEY environment variable not set")).
Proof. by vm_compute. Qed.

End ConfigExtras.

(** ** [force_cleanup.py] *)

Section ForceCleanupFacts.
Context `{Externals} {W : Type} (gw : OrderUtils.gateway W).
Import DateTimeUtils OrderUtils ForceCleanup.









End ForceCleanupFacts.

Section ForceCleanupProperties.
Context `{Externals} {W : Type} (gw : OrderUtils.gateway W).
Import DateTimeUtils OrderUtils ForceCleanup.






End ForceCleanupProperties.

Section ForceCleanupInstances.
Import DateTimeUtils OrderUtils ForceCleanup.
#[local] Existing Instance Sample.externals.


(** Seven and a half minutes after the orders were placed: the order
    without an id is cancelled like the other, the filled one is not. *)
Example force_cleanup_dated_orders :
  let open_orders :=
    [ Sample.dated_order (VStr "o1") "AAPL" "new";
      Sample.dated_order VNone "MSFT" "new";
      Sample.dated_order (VStr "o6") "AAPL" "filled" ] in
  (force_cleanup_stale_orders (Sample.broker (Ret (Some open_orders)))
     (Sample.later + 300000000, [])).2.2
  = [ GetOrders "open" (Ret (Some open_orders));
      CancelOrder (VStr "o1") (Ret (Some (Sample.response true)));
      CancelOrder VNone (Ret (Some (Sample.response true)));
      Sleep 2;
      GetOrders "open" (Ret (Some open_orders)) ].
Proof. by vm_compute. Qed.

(** On the same day's book, whose creation times are strings, the script
    finds nothing to cancel, where [cleanup_stale_orders] under the
    threshold of 300 seconds cancels the five orders in status 'new'. *)
Example force_cleanup_misses_string_times :
  (force_cleanup_stale_orders (Sample.broker (Ret (Some Sample.book)))
     (Sample.later + 300000000, [])).2.2
  = [GetOrders "open" (Ret (Some Sample.book))] ∧
  Spec.cancelled_ids
    (cleanup_stale_orders (Sample.broker (Ret (Some Sample.book))) None 300
       (Sample.later + 300000000, [])).2.2
  = [VStr "o1"; VStr "o2"; VStr "o3"; VStr "o4"; VStr "o5"].
Proof. split; by vm_compute. Qed.

End ForceCleanupInstances.
